(** * Pricing catalog, simulated checkout, subscription query and
      database diagnostics of [main.py], as a shallow embedding.

    Python [str] values are [string]s (UTF-8 bytes), dictionaries are
    stdpp [gmap]s, [Literal] types are enumerations, and the handlers run
    in a small state-and-exception monad: over the document store and the
    log of accessor calls for the API handlers, over the mutable response
    dictionary for the diagnostics handler. *)

From Stdlib Require Import ZArith Ascii String List Floats.PrimFloat.
From stdpp Require Import base option list strings pretty gmap.

Open Scope string_scope.
Open Scope list_scope.

(** ** Python values and exceptions *)

(** Truthiness of an [Optional[str]]: [None] and the empty string are falsy. *)
Definition str_truthy (o : option string) : bool :=
  match o with
  | None => false
  | Some "" => false
  | Some _ => true
  end.

(** A byte [10xxxxxx], which continues a multi-byte UTF-8 sequence. *)
Definition is_continuation (a : ascii) : bool :=
  match a with
  | Ascii _ _ _ _ _ _ false true => true
  | _ => false
  end.

(** [len(s)]: the number of code points of a UTF-8 encoded text. *)
Fixpoint str_len (s : string) : nat :=
  match s with
  | "" => 0
  | String a s' => if is_continuation a then str_len s' else S (str_len s')
  end.

(** [s[:n]]: the first [n] code points of [s]. *)
Fixpoint str_take (n : nat) (s : string) : string :=
  match s with
  | "" => ""
  | String a s' =>
      if is_continuation a then String a (str_take n s')
      else match n with
           | 0 => ""
           | S n' => String a (str_take n' s')
           end
  end.

(** [sub in s] *)
Definition contains (sub s : string) : Prop :=
  exists before after, s = before +:+ sub +:+ after.

(** The exceptions of the program, all subclasses of [Exception]:
    [HTTPException] raised by the handlers, [ImportError] (with its
    subclasses) and any other exception, each of the last two with its
    text. *)
Inductive exn :=
| HTTPException (status_code : Z) (detail : string)
| ImportError (msg : string)
| Exception (msg : string).

(** [str(e)]; for [HTTPException] the text is "<status_code>: <detail>". *)
Definition exn_str (e : exn) : string :=
  match e with
  | HTTPException status_code detail => pretty status_code +:+ ": " +:+ detail
  | ImportError msg => msg
  | Exception msg => msg
  end.

Inductive outcome (A : Type) :=
| Returned (a : A)
| Raised (e : exn).
Arguments Returned {A} a.
Arguments Raised {A} e.

(** ** State and exceptions *)

(** A computation over a mutable state [S] that returns or raises; the
    state changes made before an exception is raised are kept. *)
Definition M (S A : Type) : Type := S -> outcome A * S.

#[global] Instance M_ret {S} : MRet (M S) :=
  fun A (a : A) s => (Returned a, s).

#[global] Instance M_bind {S} : MBind (M S) :=
  fun A B (k : A -> M S B) (m : M S A) s =>
    match m s with
    | (Returned a, s') => k a s'
    | (Raised e, s') => (Raised e, s')
    end.

Definition raise {S A} (e : exn) : M S A :=
  fun s => (Raised e, s).

(** An operation of the environment that does not touch the state. *)
Definition lift {S A} (o : outcome A) : M S A :=
  fun s => (o, s).

(** The current value of the state. *)
Definition read {S} : M S S :=
  fun s => (Returned s, s).

(** [try: body / except ...: handler]; [handler e] is [None] when no
    [except] clause matches [e]. *)
Definition try_except {S A} (body : M S A) (handler : exn -> option (M S A)) : M S A :=
  fun s =>
    match body s with
    | (Returned a, s') => (Returned a, s')
    | (Raised e, s') =>
        match handler e with
        | Some h => h s'
        | None => (Raised e, s')
        end
    end.

(** ** Data model *)

(** [Literal["month", "year"]] *)
Inductive Interval := month | year.

Definition interval_str (i : Interval) : string :=
  match i with month => "month" | year => "year" end.

(** [Literal["pending", "active"]] *)
Inductive Status := pending | active.

Definition status_str (s : Status) : string :=
  match s with pending => "pending" | active => "active" end.

Module Plan.
(** [class Plan(BaseModel)] *)
Record t := {
  id : string;
  name : string;
  price : float;
  interval : Interval;
  features : list string;
  most_popular : bool
}.
End Plan.

Definition PRICING_PLANS : list Plan.t := [
  {| Plan.id := "starter";
     Plan.name := "Starter";
     Plan.price := 9%float;
     Plan.interval := month;
     Plan.features := [
       "Unlimited projects";
       "Community support";
       "Basic analytics" ];
     Plan.most_popular := false |};
  {| Plan.id := "pro";
     Plan.name := "Pro";
     Plan.price := 29%float;
     Plan.interval := month;
     Plan.features := [
       "Everything in Starter";
       "Advanced analytics";
       "Priority support";
       "Team collaboration" ];
     Plan.most_popular := true |};
  {| Plan.id := "business";
     Plan.name := "Business";
     Plan.price := 79%float;
     Plan.interval := month;
     Plan.features := [
       "Everything in Pro";
       "SLA & SSO";
       "Audit logs";
       "Dedicated success manager" ];
     Plan.most_popular := false |}
].

Module CheckoutRequest.
(** [class CheckoutRequest(BaseModel)] *)
Record t := {
  plan_id : string;
  email : string;
  user_id : option string
}.
End CheckoutRequest.

Module CheckoutResponse.
(** [class CheckoutResponse(BaseModel)] *)
Record t := {
  subscription_id : string;
  status : Status;
  message : string
}.
End CheckoutResponse.

Module Subscription.
(** Modelled from the spec: the record [schemas.Subscription], whose
    module is not among the sources; the fields are those of the spec's
    data model, which are also the keyword arguments [checkout] passes. *)
Record t := {
  plan_id : string;
  plan_name : string;
  price : float;
  interval : Interval;
  email : string;
  user_id : option string;
  status : Status
}.
End Subscription.

(** ** The document store accessor *)

(** The calls a handler makes to the store accessor, in the order made. *)
Inductive call :=
| CreateDocument (collection_name : string) (data : Subscription.t)
| GetDocuments (collection_name : string) (filter_dict : gmap string string) (limit : Z).

Section Handlers.

(** [W] is the type of the states of the document store, [value] the type
    of the Python objects held in the fields of a stored document;
    [py_str] is [str()] on them and [VStr] makes a [str] object one of
    them. *)
Context {W value : Type}.
Context (py_str : value -> string) (VStr : string -> value).

(** The functions imported from [database], whose module is not among the
    sources: each one runs on the store, changes it, and returns or
    raises. *)
Record Accessor := {
  create_document :
    string -> Subscription.t -> W -> outcome string * W;
  get_documents :
    string -> gmap string string -> Z -> W -> outcome (list (gmap string value)) * W
}.

Context (database : Accessor).

(** The state the API handlers run on: the store and the accessor calls
    made so far. *)
Record state := {
  store : W;
  calls : list call
}.

Definition call_create_document (collection_name : string) (data : Subscription.t)
  : M state string :=
  fun s =>
    let '(r, w) := create_document database collection_name data (store s) in
    (r, {| store := w; calls := calls s ++ [CreateDocument collection_name data] |}).

Definition call_get_documents (collection_name : string)
    (filter_dict : gmap string string) (limit : Z)
  : M state (list (gmap string value)) :=
  fun s =>
    let '(r, w) := get_documents database collection_name filter_dict limit (store s) in
    (r, {| store := w; calls := calls s ++ [GetDocuments collection_name filter_dict limit] |}).

(** ** Handlers *)

(** [GET /api/plans] *)
Definition list_plans : list Plan.t := PRICING_PLANS.

(** [next((p for p in PRICING_PLANS if p.id == plan_id), None)] *)
Definition find_plan (plan_id : string) : option Plan.t :=
  List.find (fun p => bool_decide (Plan.id p = plan_id)) PRICING_PLANS.

(** The [Subscription(...)] that [checkout] builds from the matched plan
    and the request. *)
Definition new_subscription (plan : Plan.t) (req : CheckoutRequest.t) : Subscription.t :=
  {| Subscription.plan_id := Plan.id plan;
     Subscription.plan_name := Plan.name plan;
     Subscription.price := Plan.price plan;
     Subscription.interval := Plan.interval plan;
     Subscription.email := CheckoutRequest.email req;
     Subscription.user_id := CheckoutRequest.user_id req;
     Subscription.status := active |}.

(** [POST /api/checkout] *)
Definition checkout (req : CheckoutRequest.t) : M state CheckoutResponse.t :=
  match find_plan (CheckoutRequest.plan_id req) with
  | None => raise (HTTPException 404 "Plan not found")
  | Some plan =>
      let sub := new_subscription plan req in
      inserted_id ← call_create_document "subscription" sub;
      mret {| CheckoutResponse.subscription_id := inserted_id;
              CheckoutResponse.status := Subscription.status sub;
              CheckoutResponse.message :=
                "Subscription for " +:+ Plan.name plan +:+ " activated" |}
  end.

(** [filter_dict or {}] *)
Definition dict_or {V} (d e : gmap string V) : gmap string V :=
  if decide (d = ∅) then e else d.

(** One turn of the loop over [docs]:
    [if "_id" in d: d["_id"] = str(d["_id"])] *)
Definition stringify_id (d : gmap string value) : gmap string value :=
  match d !! "_id" with
  | Some v => <["_id" := VStr (py_str v)]> d
  | None => d
  end.

(** [GET /api/subscriptions]; the records the accessor returns are
    distinct objects, so the loop's update in place of each one is the
    update of one element of [docs]. *)
Definition get_user_subscriptions (email user_id : option string)
  : M state (gmap string (list (gmap string value))) :=
  let filter_dict : gmap string string := ∅ in
  let filter_dict :=
    match user_id with
    | Some u => if str_truthy user_id then <["user_id" := u]> filter_dict else filter_dict
    | None => filter_dict
    end in
  let filter_dict :=
    match email with
    | Some e => if str_truthy email then <["email" := e]> filter_dict else filter_dict
    | None => filter_dict
    end in
  docs ← call_get_documents "subscription" (dict_or filter_dict ∅) 50;
  mret {[ "items" := stringify_id <$> docs ]}.

End Handlers.

Arguments Accessor : clear implicits.
Arguments state : clear implicits.

(** ** Diagnostics *)

Module Database.
(** The connection handle [database.db], as [test_database] uses it:
    its attribute [name], when it has one, and the result of
    [list_collection_names()]. *)
Record t := {
  name : option string;
  list_collection_names : outcome (list string)
}.
End Database.

(** What [test_database] reads from its environment: the result of
    [from database import db], where a returned [None] is the handle not
    initialised, and [os.getenv]. *)
Record Env := {
  import_db : outcome (option Database.t);
  getenv : string -> option string
}.

(** The values held in the status report. *)
Inductive report_value :=
| PyNone
| PyStr (s : string)
| PyList (l : list string).

(** [response[key] = v] *)
Definition setitem (key : string) (v : report_value) : M (gmap string report_value) unit :=
  fun response => (Returned tt, <[key := v]> response).

(** [GET /test] *)
Definition test_database (env : Env) : outcome (gmap string report_value) :=
  let response : gmap string report_value :=
    <["backend" := PyStr "✅ Running"]> (
    <["database" := PyStr "❌ Not Available"]> (
    <["database_url" := PyNone]> (
    <["database_name" := PyNone]> (
    <["connection_status" := PyStr "Not Connected"]> (
    <["collections" := PyList []]> ∅))))) in
  let body : M (gmap string report_value) (gmap string report_value) :=
    try_except
      (db ← lift (import_db env);
       match db with
       | Some db =>
           setitem "database" (PyStr "✅ Available");;
           setitem "database_url" (PyStr "✅ Configured");;
           setitem "database_name"
             (PyStr (match Database.name db with
                     | Some n => n
                     | None => "✅ Connected"
                     end));;
           setitem "connection_status" (PyStr "Connected");;
           try_except
             (collections ← lift (Database.list_collection_names db);
              setitem "collections" (PyList (take 10 collections));;
              setitem "database" (PyStr "✅ Connected & Working"))
             (fun e =>
                Some (setitem "database"
                        (PyStr ("⚠️  Connected but Error: " +:+ str_take 50 (exn_str e)))))
       | None =>
           setitem "database" (PyStr "⚠️  Available but not initialized")
       end)
      (fun e =>
         match e with
         | ImportError _ =>
             Some (setitem "database"
                     (PyStr "❌ Database module not found (run enable-database first)"))
         | _ =>
             Some (setitem "database" (PyStr ("❌ Error: " +:+ str_take 50 (exn_str e))))
         end);;
    setitem "database_url"
      (PyStr (if str_truthy (getenv env "DATABASE_URL") then "✅ Set" else "❌ Not Set"));;
    setitem "database_name"
      (PyStr (if str_truthy (getenv env "DATABASE_NAME") then "✅ Set" else "❌ Not Set"));;
    read in
  fst (body response).

(** ** The filter of the subscription query, as the specification words it *)

(** The equality filter built from exactly the supplied parameters among
    [email] and [user_id]; none supplied gives the empty filter. *)
Definition equality_filter (email user_id : option string) : gmap string string :=
  let filter_dict : gmap string string := ∅ in
  let filter_dict :=
    match email with
    | Some e => <["email" := e]> filter_dict
    | None => filter_dict
    end in
  match user_id with
  | Some u => <["user_id" := u]> filter_dict
  | None => filter_dict
  end.

(** A parameter counted as supplied only when it is not the empty string. *)
Definition non_empty (o : option string) : option string :=
  match o with
  | Some "" => None
  | _ => o
  end.

(** ** The accessor's contract on identifiers *)

(** The outcomes of the [create_document] calls when the accessor calls
    [cs] are made in turn from the store [w]. *)
Fixpoint issued_ids {W value : Type} (database : Accessor W value)
    (cs : list call) (w : W) : list (outcome string) :=
  match cs with
  | [] => []
  | CreateDocument collection_name data :: rest =>
      let '(r, w') := create_document database collection_name data w in
      r :: issued_ids database rest w'
  | GetDocuments collection_name filter_dict limit :: rest =>
      let '(_, w') := get_documents database collection_name filter_dict limit w in
      issued_ids database rest w'
  end.

(** [create_document] returns a unique identifier on each call: in every
    run of accessor calls from the store [w], every [create_document]
    returns, and no two of them return the same identifier. *)
Definition unique_identifiers {W value : Type} (database : Accessor W value) (w : W) : Prop :=
  forall cs, exists ids, issued_ids database cs w = map Returned ids /\ NoDup ids.

(** ** Requests in sequence *)

(** The checkout requests [reqs] handled one after the other, each on
    the state the one before it left: their outcomes in order and the
    state at the end; a request that raises does not stop the ones after
    it. *)
Fixpoint checkouts {W value : Type} (database : Accessor W value)
    (reqs : list CheckoutRequest.t) (st : state W)
  : list (outcome CheckoutResponse.t) * state W :=
  match reqs with
  | [] => ([], st)
  | req :: rest =>
      let '(r, st') := checkout database req st in
      let '(rs, st'') := checkouts database rest st' in
      (r :: rs, st'')
  end.

(** The [subscription_id]s of the responses among the outcomes [rs]. *)
Definition subscription_ids (rs : list (outcome CheckoutResponse.t)) : list string :=
  omap (fun r => match r with
                 | Returned resp => Some (CheckoutResponse.subscription_id resp)
                 | Raised _ => None
                 end) rs.

(** The accessor call that [checkout] makes for [req], if it makes one. *)
Definition checkout_call (req : CheckoutRequest.t) : option call :=
  (fun plan => CreateDocument "subscription" (new_subscription plan req))
    <$> find_plan (CheckoutRequest.plan_id req).

(** ** An in-memory document store *)

(** A store to run the handlers on: the documents of one collection in
    insertion order, each with an ["_id"] numbered by its position. *)
Inductive mem_value :=
| ObjectId (n : nat)
| Str (s : string).

#[global] Instance mem_value_eq_dec : EqDecision mem_value.
Proof. solve_decision. Defined.

Definition mem_str (v : mem_value) : string :=
  match v with
  | ObjectId n => pretty n
  | Str s => s
  end.

Definition mem_document (n : nat) (data : Subscription.t) : gmap string mem_value :=
  <["_id" := ObjectId n]> (
  <["plan_id" := Str (Subscription.plan_id data)]> (
  <["plan_name" := Str (Subscription.plan_name data)]> (
  <["interval" := Str (interval_str (Subscription.interval data))]> (
  <["email" := Str (Subscription.email data)]> (
  <["status" := Str (status_str (Subscription.status data))]> (
  match Subscription.user_id data with
  | Some u => {[ "user_id" := Str u ]}
  | None => ∅
  end)))))).

Definition mem_store : Accessor (list (gmap string mem_value)) mem_value :=
  {| create_document := fun _ data w =>
       (Returned (pretty (List.length w)), w ++ [mem_document (List.length w) data]);
     get_documents := fun _ filter_dict limit w =>
       (Returned (take (Z.to_nat limit)
                    (filter (fun d => (Str <$> filter_dict) ⊆ d) w)), w) |}.

(** A store that is down: every call raises. *)
Definition down_store : Accessor unit mem_value :=
  {| create_document := fun _ _ w => (Raised (Exception "Database not available"), w);
     get_documents := fun _ _ _ w => (Raised (Exception "Database not available"), w) |}.

Definition mem_init : state (list (gmap string mem_value)) :=
  {| store := []; calls := [] |}.

Definition pro_request : CheckoutRequest.t :=
  {| CheckoutRequest.plan_id := "pro";
     CheckoutRequest.email := "x@y.com";
     CheckoutRequest.user_id := None |}.

Definition nope_request : CheckoutRequest.t :=
  {| CheckoutRequest.plan_id := "nope";
     CheckoutRequest.email := "x@y.com";
     CheckoutRequest.user_id := None |}.

(** The in-memory store after one checkout of [pro_request]. *)
Definition mem_after_checkout : state (list (gmap string mem_value)) :=
  snd (checkout mem_store pro_request mem_init).

(** Two environments for the diagnostics: a connected database with twelve
    collections, and one whose enumeration fails with a message of sixty
    characters. *)
Definition connected_env : Env :=
  {| import_db :=
       Returned (Some {| Database.name := Some "app";
                         Database.list_collection_names :=
                           Returned ["c01"; "c02"; "c03"; "c04"; "c05"; "c06";
                                     "c07"; "c08"; "c09"; "c10"; "c11"; "c12"] |});
     getenv := fun _ => None |}.

Definition failing_env : Env :=
  {| import_db :=
       Returned (Some {| Database.name := None;
                         Database.list_collection_names :=
                           Raised (Exception
                             "0123456789012345678901234567890123456789012345678901234567890") |});
     getenv := fun key => if decide (key = "DATABASE_URL") then Some "mongodb://db" else None |}.

(** * Properties *)

(** ** The plan catalog *)

(** C3: [list_plans] returns the catalog itself: exactly three plans, in
    declaration order with the ids starter, pro, business, which are
    pairwise distinct; exactly one plan is flagged [most_popular], the one
    whose id is "pro". *)
Theorem list_plans_catalog :
  list_plans = PRICING_PLANS
  /\ List.length list_plans = 3
  /\ map Plan.id list_plans = ["starter"; "pro"; "business"]
  /\ NoDup (map Plan.id list_plans)
  /\ map Plan.id (List.filter Plan.most_popular list_plans) = ["pro"].
Proof.
  repeat split; try reflexivity.
  apply (bool_decide_unpack _). vm_compute. exact I.
Qed.

(** Looking a catalog plan up by its own id finds that very plan: the ids
    are distinct, so the first match is the only one. *)
Lemma find_plan_In (plan : Plan.t) :
  In plan PRICING_PLANS -> find_plan (Plan.id plan) = Some plan.
Proof.
  unfold PRICING_PLANS. simpl.
  intros [<- | [<- | [<- | []]]]; reflexivity.
Qed.

Lemma find_plan_Some (plan_id : string) (plan : Plan.t) :
  find_plan plan_id = Some plan -> In plan PRICING_PLANS /\ Plan.id plan = plan_id.
Proof.
  unfold find_plan. intros Hfind.
  apply find_some in Hfind as [Hin Hid].
  split; [assumption | exact (bool_decide_eq_true_1 _ Hid)].
Qed.

Lemma find_plan_None (plan_id : string) :
  (forall p, In p PRICING_PLANS -> Plan.id p <> plan_id) -> find_plan plan_id = None.
Proof.
  intros Hno. destruct (find_plan plan_id) as [plan|] eqn:Hfind; [|reflexivity].
  apply find_plan_Some in Hfind as [Hin Hid]. destruct (Hno plan Hin Hid).
Qed.

(** ** Checkout *)

Section Checkout.

Context {W value : Type} (database : Accessor W value).

(** The run of [checkout] once the plan is found: one [create_document]
    call, whose identifier comes back in the response. *)
Lemma checkout_found (req : CheckoutRequest.t) (st : state W) (plan : Plan.t)
    (inserted_id : string) (w : W) :
  find_plan (CheckoutRequest.plan_id req) = Some plan ->
  create_document database "subscription" (new_subscription plan req) (store st)
    = (Returned inserted_id, w) ->
  checkout database req st =
    (Returned {| CheckoutResponse.subscription_id := inserted_id;
                 CheckoutResponse.status := active;
                 CheckoutResponse.message :=
                   "Subscription for " +:+ Plan.name plan +:+ " activated" |},
     {| store := w;
        calls := calls st ++ [CreateDocument "subscription" (new_subscription plan req)] |}).
Proof.
  intros Hfind Hcreate. unfold checkout. rewrite Hfind.
  unfold mbind, M_bind, call_create_document. rewrite Hcreate. reflexivity.
Qed.

(** An error raised by [create_document] leaves [checkout] as it is. *)
Lemma checkout_propagates (req : CheckoutRequest.t) (st : state W) (plan : Plan.t)
    (e : exn) (w : W) :
  find_plan (CheckoutRequest.plan_id req) = Some plan ->
  create_document database "subscription" (new_subscription plan req) (store st)
    = (Raised e, w) ->
  fst (checkout database req st) = Raised e.
Proof.
  intros Hfind Hcreate. unfold checkout. rewrite Hfind.
  unfold mbind, M_bind, call_create_document. rewrite Hcreate. reflexivity.
Qed.

End Checkout.

(** C1: for a request whose [plan_id] is the id of a catalog plan, and a
    store accessor whose [create_document] returns an identifier,
    [checkout] returns a response with status "active" and a message that
    contains the plan's name; for [plan_id] "pro" the message is exactly
    "Subscription for Pro activated". *)
Theorem checkout_valid_plan {W value : Type} (database : Accessor W value)
    (req : CheckoutRequest.t) (st : state W) (plan : Plan.t)
    (inserted_id : string) (w : W) :
  In plan PRICING_PLANS ->
  Plan.id plan = CheckoutRequest.plan_id req ->
  create_document database "subscription" (new_subscription plan req) (store st)
    = (Returned inserted_id, w) ->
  exists resp st',
    checkout database req st = (Returned resp, st')
    /\ CheckoutResponse.status resp = active
    /\ status_str (CheckoutResponse.status resp) = "active"
    /\ contains (Plan.name plan) (CheckoutResponse.message resp)
    /\ (CheckoutRequest.plan_id req = "pro" ->
        CheckoutResponse.message resp = "Subscription for Pro activated").
Proof.
  intros Hin Hid Hcreate.
  pose proof (find_plan_In plan Hin) as Hfind. rewrite Hid in Hfind.
  eexists _, _. split; [exact (checkout_found database req st plan _ _ Hfind Hcreate)|].
  simpl. repeat split.
  - exists "Subscription for ", " activated". reflexivity.
  - intros Hpro. rewrite Hpro in Hfind. injection Hfind as <-. reflexivity.
Qed.

Lemma checkout_valid_plan_witness :
  exists resp st',
    checkout mem_store pro_request mem_init = (Returned resp, st')
    /\ CheckoutResponse.status resp = active
    /\ status_str (CheckoutResponse.status resp) = "active"
    /\ contains "Pro" (CheckoutResponse.message resp)
    /\ (CheckoutRequest.plan_id pro_request = "pro" ->
        CheckoutResponse.message resp = "Subscription for Pro activated").
Proof.
  refine (checkout_valid_plan mem_store pro_request mem_init
            {| Plan.id := "pro"; Plan.name := "Pro"; Plan.price := 29%float;
               Plan.interval := month;
               Plan.features := [ "Everything in Starter"; "Advanced analytics";
                                  "Priority support"; "Team collaboration" ];
               Plan.most_popular := true |} "0" _ _ _ _).
  - simpl. right. left. reflexivity.
  - reflexivity.
  - reflexivity.
Defined.

(** C2: for a request whose [plan_id] is the id of no catalog plan,
    [checkout] raises [HTTPException] with status code 404 and detail
    "Plan not found", and leaves the state as it was: the store is
    untouched and no accessor call is made. *)
Theorem checkout_unknown_plan {W value : Type} (database : Accessor W value)
    (req : CheckoutRequest.t) (st : state W) :
  (forall p, In p PRICING_PLANS -> Plan.id p <> CheckoutRequest.plan_id req) ->
  checkout database req st = (Raised (HTTPException 404 "Plan not found"), st)
  /\ calls (snd (checkout database req st)) = calls st.
Proof.
  intros Hno. unfold checkout. rewrite (find_plan_None _ Hno). split; reflexivity.
Qed.

Lemma checkout_unknown_plan_witness :
  checkout mem_store nope_request mem_init
    = (Raised (HTTPException 404 "Plan not found"), mem_init)
  /\ calls (snd (checkout mem_store nope_request mem_init)) = calls mem_init.
Proof.
  apply (checkout_unknown_plan mem_store nope_request mem_init).
  simpl. intros p [<- | [<- | [<- | []]]]; discriminate.
Defined.

(** C6: for a request with a valid [plan_id], [checkout] makes exactly one
    accessor call, [create_document] on the collection "subscription"; the
    record passed has status "active", its [plan_id], [plan_name], [price]
    and [interval] are those of the matched plan and its [email] and
    [user_id] those of the request; the [subscription_id] of the response
    is the identifier that call returned, and the status of the response
    is the status of the record. *)
Theorem checkout_persisted_record {W value : Type} (database : Accessor W value)
    (req : CheckoutRequest.t) (st : state W) (plan : Plan.t)
    (inserted_id : string) (w : W) :
  In plan PRICING_PLANS ->
  Plan.id plan = CheckoutRequest.plan_id req ->
  create_document database "subscription" (new_subscription plan req) (store st)
    = (Returned inserted_id, w) ->
  exists resp sub st',
    checkout database req st = (Returned resp, st')
    /\ calls st' = calls st ++ [CreateDocument "subscription" sub]
    /\ create_document database "subscription" sub (store st)
         = (Returned (CheckoutResponse.subscription_id resp), store st')
    /\ Subscription.status sub = active
    /\ Subscription.plan_id sub = Plan.id plan
    /\ Subscription.plan_name sub = Plan.name plan
    /\ Subscription.price sub = Plan.price plan
    /\ Subscription.interval sub = Plan.interval plan
    /\ Subscription.email sub = CheckoutRequest.email req
    /\ Subscription.user_id sub = CheckoutRequest.user_id req
    /\ CheckoutResponse.subscription_id resp = inserted_id
    /\ CheckoutResponse.status resp = Subscription.status sub.
Proof.
  intros Hin Hid Hcreate.
  pose proof (find_plan_In plan Hin) as Hfind. rewrite Hid in Hfind.
  eexists _, (new_subscription plan req), _.
  split; [exact (checkout_found database req st plan _ _ Hfind Hcreate)|].
  simpl. repeat split. exact Hcreate.
Qed.

Lemma checkout_persisted_record_witness :
  exists resp sub st',
    checkout mem_store pro_request mem_init = (Returned resp, st')
    /\ calls st' = [CreateDocument "subscription" sub]
    /\ create_document mem_store "subscription" sub []
         = (Returned (CheckoutResponse.subscription_id resp), store st')
    /\ Subscription.status sub = active
    /\ Subscription.plan_id sub = "pro"
    /\ Subscription.plan_name sub = "Pro"
    /\ Subscription.price sub = 29%float
    /\ Subscription.interval sub = month
    /\ Subscription.email sub = "x@y.com"
    /\ Subscription.user_id sub = None
    /\ CheckoutResponse.subscription_id resp = "0"
    /\ CheckoutResponse.status resp = Subscription.status sub.
Proof.
  refine (checkout_persisted_record mem_store pro_request mem_init
            {| Plan.id := "pro"; Plan.name := "Pro"; Plan.price := 29%float;
               Plan.interval := month;
               Plan.features := [ "Everything in Starter"; "Advanced analytics";
                                  "Priority support"; "Team collaboration" ];
               Plan.most_popular := true |} "0" _ _ _ _).
  - simpl. right. left. reflexivity.
  - reflexivity.
  - reflexivity.
Defined.

(** In the in-memory store the identifier is the position of the new
    document, so the identifiers of a run are increasing numerals. *)
Lemma mem_store_issued_ids (cs : list call) (w : list (gmap string mem_value)) :
  exists ids,
    issued_ids mem_store cs w = map Returned ids
    /\ NoDup ids
    /\ forall i, In i ids -> exists n : nat, i = pretty n /\ List.length w <= n.
Proof.
  revert w. induction cs as [|c cs IH]; intros w.
  - exists []. repeat split; [constructor | intros i []].
  - destruct c as [collection_name data | collection_name filter_dict limit]; simpl.
    + destruct (IH (w ++ [mem_document (List.length w) data]))
        as (ids & Hids & Hnodup & Hge).
      exists (pretty (List.length w) :: ids). rewrite Hids. repeat split.
      * constructor; [|assumption].
        intros Hin%list_elem_of_In. destruct (Hge _ Hin) as (n & Hn & Hle).
        apply (inj pretty) in Hn. rewrite length_app in Hle. simpl in Hle. lia.
      * intros i [<- | Hin]; [exists (List.length w); split; [reflexivity | lia]|].
        destruct (Hge _ Hin) as (n & Hn & Hle). exists n. split; [assumption|].
        rewrite length_app in Hle. simpl in Hle. lia.
    + destruct (IH w) as (ids & Hids & Hnodup & Hge). exists ids. auto.
Qed.

Lemma mem_store_unique_identifiers (w : list (gmap string mem_value)) :
  unique_identifiers mem_store w.
Proof.
  intros cs. destruct (mem_store_issued_ids cs w) as (ids & Hids & Hnodup & _).
  exists ids. split; assumption.
Qed.

(** C5: when [create_document] returns a unique identifier on each call
    made from the current store on, two [checkout] calls in a row with the same request, whose [plan_id]
    is valid, both return, each makes its own [create_document] call with
    the same record, and the two [subscription_id]s differ. *)
Theorem checkout_twice_distinct {W value : Type} (database : Accessor W value)
    (req : CheckoutRequest.t) (st : state W) (plan : Plan.t) :
  unique_identifiers database (store st) ->
  In plan PRICING_PLANS ->
  Plan.id plan = CheckoutRequest.plan_id req ->
  exists r1 st1 r2 st2,
    checkout database req st = (Returned r1, st1)
    /\ checkout database req st1 = (Returned r2, st2)
    /\ CheckoutResponse.subscription_id r1 <> CheckoutResponse.subscription_id r2
    /\ calls st2 = calls st ++ [CreateDocument "subscription" (new_subscription plan req);
                                CreateDocument "subscription" (new_subscription plan req)].
Proof.
  intros Huniq Hin Hid.
  pose proof (find_plan_In plan Hin) as Hfind. rewrite Hid in Hfind.
  set (sub := new_subscription plan req).
  destruct (Huniq [CreateDocument "subscription" sub; CreateDocument "subscription" sub])
    as (ids & Hids & Hnodup).
  simpl in Hids.
  destruct (create_document database "subscription" sub (store st)) as [o1 w1] eqn:H1.
  destruct (create_document database "subscription" sub w1) as [o2 w2] eqn:H2.
  destruct ids as [|i1 [|i2 [|i3 ids]]]; try discriminate Hids.
  simpl in Hids. injection Hids as -> ->.
  pose proof (checkout_found database req st plan i1 w1 Hfind H1) as Hc1.
  eexists _, _, _, _. split; [exact Hc1|].
  split; [apply (checkout_found database req _ plan i2 w2 Hfind); exact H2|].
  simpl. split.
  - intros ->. apply NoDup_cons in Hnodup as [Hnotin _]. apply Hnotin. left.
  - rewrite <- app_assoc. reflexivity.
Qed.

Lemma checkout_twice_distinct_witness :
  exists r1 st1 r2 st2,
    checkout mem_store pro_request mem_init = (Returned r1, st1)
    /\ checkout mem_store pro_request st1 = (Returned r2, st2)
    /\ CheckoutResponse.subscription_id r1 <> CheckoutResponse.subscription_id r2
    /\ calls st2 =
         [CreateDocument "subscription"
            (new_subscription
               {| Plan.id := "pro"; Plan.name := "Pro"; Plan.price := 29%float;
                  Plan.interval := month;
                  Plan.features := [ "Everything in Starter"; "Advanced analytics";
                                     "Priority support"; "Team collaboration" ];
                  Plan.most_popular := true |} pro_request);
          CreateDocument "subscription"
            (new_subscription
               {| Plan.id := "pro"; Plan.name := "Pro"; Plan.price := 29%float;
                  Plan.interval := month;
                  Plan.features := [ "Everything in Starter"; "Advanced analytics";
                                     "Priority support"; "Team collaboration" ];
                  Plan.most_popular := true |} pro_request)].
Proof.
  refine (checkout_twice_distinct mem_store pro_request mem_init _ _ _ _).
  - exact (mem_store_unique_identifiers []).
  - simpl. right. left. reflexivity.
  - reflexivity.
Defined.

(** ** Subscription query *)

Lemma dict_or_empty {V : Type} (d : gmap string V) : dict_or d ∅ = d.
Proof. unfold dict_or. destruct (decide (d = ∅)) as [-> |]; reflexivity. Qed.

Section Query.

Context {W value : Type} (py_str : value -> string) (VStr : string -> value).
Context (database : Accessor W value).

(** The run of [get_user_subscriptions]: one [get_documents] call on the
    collection "subscription" with the filter of the non-empty parameters
    and the limit 50; its documents come back with their ["_id"]
    rewritten, its error comes back as it is. *)
Lemma get_user_subscriptions_run (email user_id : option string) (st : state W) :
  get_user_subscriptions py_str VStr database email user_id st =
    let filter_dict := equality_filter (non_empty email) (non_empty user_id) in
    let '(r, w) := get_documents database "subscription" filter_dict 50 (store st) in
    (match r with
     | Returned docs => Returned {[ "items" := stringify_id py_str VStr <$> docs ]}
     | Raised e => Raised e
     end,
     {| store := w;
        calls := calls st ++ [GetDocuments "subscription" filter_dict 50] |}).
Proof.
  unfold get_user_subscriptions. rewrite dict_or_empty.
  unfold mbind, M_bind, call_get_documents.
  assert (Hfilter :
    match email with
    | Some e =>
        if str_truthy email
        then <["email" := e]>
               (match user_id with
                | Some u => if str_truthy user_id then <["user_id" := u]> ∅ else ∅
                | None => ∅
                end)
        else match user_id with
             | Some u => if str_truthy user_id then <["user_id" := u]> ∅ else ∅
             | None => ∅
             end
    | None =>
        match user_id with
        | Some u => if str_truthy user_id then <["user_id" := u]> ∅ else ∅
        | None => ∅
        end
    end = equality_filter (non_empty email) (non_empty user_id) :> gmap string string).
  { destruct email as [[|a e]|], user_id as [[|b u]|]; reflexivity. }
  rewrite Hfilter. simpl.
  destruct (get_documents database "subscription" _ 50 (store st)) as [[docs | e] w];
    reflexivity.
Qed.

(** What the loop over [docs] does to one document. *)
Lemma stringify_id_lookup (d : gmap string value) (key : string) :
  stringify_id py_str VStr d !! key =
    if decide (key = "_id") then (fun v => VStr (py_str v)) <$> d !! "_id" else d !! key.
Proof.
  unfold stringify_id. destruct (decide (key = "_id")) as [-> | Hne].
  - destruct (d !! "_id") as [v|] eqn:Hid; simpl.
    + apply lookup_insert_eq.
    + exact Hid.
  - destruct (d !! "_id") as [v|]; [|reflexivity].
    apply lookup_insert_ne. congruence.
Qed.

End Query.

(** C4: every call to [get_user_subscriptions] makes exactly
    one accessor call, [get_documents] on the collection "subscription",
    with limit 50 and with the equality filter built from exactly those
    of [email] and [user_id] that are supplied and not the empty string
    (both, either, or neither; neither gives the empty filter). *)
Theorem get_user_subscriptions_filter {W value : Type}
    (py_str : value -> string) (VStr : string -> value) (database : Accessor W value)
    (email user_id : option string) (st : state W) :
  calls (snd (get_user_subscriptions py_str VStr database email user_id st)) =
    calls st ++ [GetDocuments "subscription"
                   (equality_filter (non_empty email) (non_empty user_id)) 50].
Proof.
  rewrite get_user_subscriptions_run. simpl.
  destruct (get_documents database "subscription" _ 50 (store st)). reflexivity.
Qed.

(** C4 with every supplied parameter in the filter does not hold: with
    [email] supplied as the empty string and
    no [user_id], the filter passed is empty, not the equality filter on
    the supplied [email]. *)
Lemma get_user_subscriptions_filter_counterexample :
  calls (snd (get_user_subscriptions mem_str Str mem_store (Some "") None mem_init)) <>
    calls mem_init ++ [GetDocuments "subscription" (equality_filter (Some "") None) 50].
Proof.
  intros Heq.
  apply (f_equal (fun cs => match cs with
                            | [GetDocuments _ filter_dict _] => filter_dict !! "email"
                            | _ => None
                            end)) in Heq.
  vm_compute in Heq. discriminate Heq.
Qed.

(** C10: a parameter supplied as the empty string is treated as absent:
    the call with [email = ""] and [user_id = ""] runs as the call with
    neither, making the unfiltered query; and the same holds for each
    parameter on its own, whatever the other is. *)
Theorem get_user_subscriptions_empty_string {W value : Type}
    (py_str : value -> string) (VStr : string -> value) (database : Accessor W value)
    (email user_id : option string) (st : state W) :
  get_user_subscriptions py_str VStr database (Some "") (Some "") st
    = get_user_subscriptions py_str VStr database None None st
  /\ calls (snd (get_user_subscriptions py_str VStr database (Some "") (Some "") st))
       = calls st ++ [GetDocuments "subscription" ∅ 50]
  /\ get_user_subscriptions py_str VStr database (Some "") user_id st
       = get_user_subscriptions py_str VStr database None user_id st
  /\ get_user_subscriptions py_str VStr database email (Some "") st
       = get_user_subscriptions py_str VStr database email None st.
Proof.
  rewrite !get_user_subscriptions_run. simpl.
  repeat split.
  destruct (get_documents database "subscription" _ 50 (store st)). reflexivity.
Qed.

(** C9: when the accessor returns [docs], the response is the dictionary
    with the one key "items", holding as many records in the same order;
    a record that has an ["_id"] field has the string form of its value
    there, a record without one still has none, and every other field of
    every record is as the accessor returned it. *)
Theorem get_user_subscriptions_items {W value : Type}
    (py_str : value -> string) (VStr : string -> value) (database : Accessor W value)
    (email user_id : option string) (st : state W)
    (docs : list (gmap string value)) (w : W) :
  get_documents database "subscription"
    (equality_filter (non_empty email) (non_empty user_id)) 50 (store st)
    = (Returned docs, w) ->
  exists items st',
    get_user_subscriptions py_str VStr database email user_id st
      = (Returned {[ "items" := items ]}, st')
    /\ List.length items = List.length docs
    /\ forall (i : nat) (d : gmap string value),
         docs !! i = Some d ->
         exists d',
           items !! i = Some d'
           /\ d' !! "_id" = (fun v => VStr (py_str v)) <$> d !! "_id"
           /\ forall key : string, key <> "_id" -> d' !! key = d !! key.
Proof.
  intros Hget. rewrite get_user_subscriptions_run. simpl. rewrite Hget.
  eexists _, _. split; [reflexivity|]. split; [apply length_fmap|].
  intros i d Hd. exists (stringify_id py_str VStr d).
  split; [rewrite list_lookup_fmap, Hd; reflexivity|].
  split.
  - rewrite stringify_id_lookup. reflexivity.
  - intros key Hkey. rewrite stringify_id_lookup.
    destruct (decide (key = "_id")); [contradiction | reflexivity].
Qed.

Lemma get_user_subscriptions_items_witness :
  exists items st',
    get_user_subscriptions mem_str Str mem_store (Some "x@y.com") None mem_after_checkout
      = (Returned {[ "items" := items ]}, st')
    /\ List.length items = List.length (store mem_after_checkout)
    /\ forall (i : nat) (d : gmap string mem_value),
         store mem_after_checkout !! i = Some d ->
         exists d',
           items !! i = Some d'
           /\ d' !! "_id" = (fun v => Str (mem_str v)) <$> d !! "_id"
           /\ forall key : string, key <> "_id" -> d' !! key = d !! key.
Proof.
  apply (get_user_subscriptions_items mem_str Str mem_store (Some "x@y.com") None
           mem_after_checkout (store mem_after_checkout) (store mem_after_checkout)).
  vm_compute. reflexivity.
Defined.

(** ** Diagnostics *)

(** [s[:n]] has at most [n] code points. *)
Lemma str_take_len (n : nat) (s : string) : str_len (str_take n s) <= n.
Proof.
  revert n. induction s as [|a s IH]; intros n; simpl; [lia|].
  destruct (is_continuation a) eqn:Ha; simpl.
  - rewrite Ha. apply IH.
  - destruct n as [|n]; simpl; [lia|]. rewrite Ha. specialize (IH n). lia.
Qed.

(** [s[:n]] is a prefix of [s]. *)
Lemma str_take_prefix (n : nat) (s : string) : exists rest, s = str_take n s +:+ rest.
Proof.
  revert n. induction s as [|a s IH]; intros n; simpl; [exists ""; reflexivity|].
  destruct (is_continuation a).
  - destruct (IH n) as [rest Hrest]. exists rest.
    change (String a s = String a (str_take n s +:+ rest)). rewrite <- Hrest. reflexivity.
  - destruct n as [|n]; [exists (String a s); reflexivity|].
    destruct (IH n) as [rest Hrest]. exists rest.
    change (String a s = String a (str_take n s +:+ rest)). rewrite <- Hrest. reflexivity.
Qed.

(** A text of at most [n] code points is kept whole. *)
Lemma str_take_all (n : nat) (s : string) : str_len s <= n -> str_take n s = s.
Proof.
  revert n. induction s as [|a s IH]; intros n; simpl; [reflexivity|].
  destruct (is_continuation a).
  - intros Hlen. f_equal. apply IH. exact Hlen.
  - destruct n as [|n]; [lia|]. intros Hlen. f_equal. apply IH. lia.
Qed.

(** [s[:n]] has [n] code points, or all those of [s] when it has fewer. *)
Lemma str_take_len_min (n : nat) (s : string) :
  str_len (str_take n s) = Nat.min n (str_len s).
Proof.
  revert n. induction s as [|a s IH]; intros n; simpl; [lia|].
  destruct (is_continuation a) eqn:Ha; simpl.
  - rewrite Ha. apply IH.
  - destruct n as [|n]; simpl; [reflexivity|]. rewrite Ha, IH. reflexivity.
Qed.

(** C7: [test_database] returns a report in every environment; when the
    import raises [ImportError], when it raises anything else, when the
    handle is [None], and when the enumeration of the collections raises,
    the failure is the text of the report's "database" field. *)
Theorem test_database_never_raises (env : Env) :
  exists report,
    test_database env = Returned report
    /\ report !! "database" = Some (PyStr
         match import_db env with
         | Raised (ImportError _) =>
             "❌ Database module not found (run enable-database first)"
         | Raised e => "❌ Error: " +:+ str_take 50 (exn_str e)
         | Returned None => "⚠️  Available but not initialized"
         | Returned (Some db) =>
             match Database.list_collection_names db with
             | Raised e => "⚠️  Connected but Error: " +:+ str_take 50 (exn_str e)
             | Returned _ => "✅ Connected & Working"
             end
         end).
Proof.
  destruct env as [[[[db_name [collections | e]]|] | e] getenv].
  - eexists. split; reflexivity.
  - eexists. split; reflexivity.
  - eexists. split; reflexivity.
  - destruct e; eexists; split; reflexivity.
Qed.

(** C8: when the import gives a connection handle, [test_database]
    returns a report; if the enumeration returns, the report's
    "collections" are the first ten names at most, in order; if it raises,
    the report's "database" is the connected-with-error text followed by
    the error's message truncated to fifty characters: its first fifty
    when it has more, and the whole message otherwise. *)
Theorem test_database_enumeration (env : Env) (db : Database.t) :
  import_db env = Returned (Some db) ->
  exists report,
    test_database env = Returned report
    /\ match Database.list_collection_names db with
       | Returned collections =>
           exists shown,
             report !! "collections" = Some (PyList shown)
             /\ shown = take 10 collections
             /\ List.length shown <= 10
             /\ List.length shown = Nat.min 10 (List.length collections)
             /\ (exists rest, collections = shown ++ rest)
             /\ report !! "database" = Some (PyStr "✅ Connected & Working")
       | Raised e =>
           exists text,
             report !! "database" = Some (PyStr ("⚠️  Connected but Error: " +:+ text))
             /\ text = str_take 50 (exn_str e)
             /\ str_len text <= 50
             /\ str_len text = Nat.min 50 (str_len (exn_str e))
             /\ (exists rest, exn_str e = text +:+ rest)
             /\ (str_len (exn_str e) <= 50 -> text = exn_str e)
       end.
Proof.
  destruct env as [import getenv], db as [db_name [collections | e]]; simpl; intros ->.
  - eexists. split; [reflexivity|].
    exists (take 10 collections).
    split; [reflexivity|]. split; [reflexivity|].
    split; [rewrite length_take; lia|].
    split; [exact (length_take collections 10)|].
    split; [|reflexivity].
    exists (drop 10 collections). symmetry. apply take_drop.
  - eexists. split; [reflexivity|].
    exists (str_take 50 (exn_str e)).
    split; [reflexivity|]. split; [reflexivity|].
    split; [apply str_take_len|].
    split; [exact (str_take_len_min 50 (exn_str e))|].
    split; [apply str_take_prefix | apply str_take_all].
Qed.

Lemma test_database_enumeration_witness :
  exists report,
    test_database failing_env = Returned report
    /\ exists text,
         report !! "database" = Some (PyStr ("⚠️  Connected but Error: " +:+ text))
         /\ text = str_take 50 "0123456789012345678901234567890123456789012345678901234567890"
         /\ str_len text <= 50
         /\ str_len text =
              Nat.min 50 (str_len "0123456789012345678901234567890123456789012345678901234567890")
         /\ (exists rest,
               "0123456789012345678901234567890123456789012345678901234567890" = text +:+ rest)
         /\ (str_len "0123456789012345678901234567890123456789012345678901234567890" <= 50 ->
              text = "0123456789012345678901234567890123456789012345678901234567890").
Proof.
  exact (test_database_enumeration failing_env _ eq_refl).
Defined.

(** ** The handlers on concrete inputs *)

Example checkout_pro :
  fst (checkout mem_store pro_request mem_init) =
    Returned {| CheckoutResponse.subscription_id := "0";
                CheckoutResponse.status := active;
                CheckoutResponse.message := "Subscription for Pro activated" |}.
Proof. reflexivity. Qed.

Example checkout_nope :
  fst (checkout mem_store nope_request mem_init) =
    Raised (HTTPException 404 "Plan not found").
Proof. reflexivity. Qed.

Example checkout_store_down :
  checkout down_store pro_request {| store := tt; calls := [] |} =
    (Raised (Exception "Database not available"),
     {| store := tt;
        calls := [CreateDocument "subscription"
                    {| Subscription.plan_id := "pro";
                       Subscription.plan_name := "Pro";
                       Subscription.price := 29%float;
                       Subscription.interval := month;
                       Subscription.email := "x@y.com";
                       Subscription.user_id := None;
                       Subscription.status := active |}] |}).
Proof. reflexivity. Qed.

Example subscriptions_by_email :
  fst (get_user_subscriptions mem_str Str mem_store (Some "x@y.com") None mem_after_checkout) =
    Returned {[ "items" :=
      [ <["_id" := Str "0"]> (
        <["plan_id" := Str "pro"]> (
        <["plan_name" := Str "Pro"]> (
        <["interval" := Str "month"]> (
        <["email" := Str "x@y.com"]> (
        <["status" := Str "active"]> ∅))))) ] ]}.
Proof. vm_compute. reflexivity. Qed.

Example subscriptions_other_email :
  fst (get_user_subscriptions mem_str Str mem_store (Some "a@b.com") None mem_after_checkout) =
    Returned {[ "items" := [] ]}.
Proof. vm_compute. reflexivity. Qed.

Example str_take_multibyte : str_take 2 "✅ Set" = "✅ " /\ str_len "✅ Set" = 5.
Proof. split; reflexivity. Qed.

Example test_database_connected :
  test_database connected_env =
    Returned (
      <["backend" := PyStr "✅ Running"]> (
      <["database" := PyStr "✅ Connected & Working"]> (
      <["database_url" := PyStr "❌ Not Set"]> (
      <["database_name" := PyStr "❌ Not Set"]> (
      <["connection_status" := PyStr "Connected"]> (
      <["collections" := PyList ["c01"; "c02"; "c03"; "c04"; "c05";
                                 "c06"; "c07"; "c08"; "c09"; "c10"]]> ∅)))))).
Proof. vm_compute. reflexivity. Qed.

Example test_database_failing :
  test_database failing_env =
    Returned (
      <["backend" := PyStr "✅ Running"]> (
      <["database" := PyStr
          "⚠️  Connected but Error: 01234567890123456789012345678901234567890123456789"]> (
      <["database_url" := PyStr "✅ Set"]> (
      <["database_name" := PyStr "❌ Not Set"]> (
      <["connection_status" := PyStr "Connected"]> (
      <["collections" := PyList []]> ∅)))))).
Proof. vm_compute. reflexivity. Qed.

(** * Further properties of the handlers *)

(** ** Catalog lookup and checkout *)

(** X1: The lookup of [checkout] finds a plan exactly when it is the catalog
    plan of that id: what is found is in the catalog under the id asked
    for, and every catalog plan is found under its own id. *)
Theorem find_plan_iff (plan_id : string) (plan : Plan.t) :
  find_plan plan_id = Some plan <-> In plan PRICING_PLANS /\ Plan.id plan = plan_id.
Proof.
  split.
  - apply find_plan_Some.
  - intros [Hin <-]. apply find_plan_In. exact Hin.
Qed.

(** Once the plan is found, [checkout] makes its one accessor call,
    whether the call returns or raises. *)
Lemma checkout_found_calls {W value : Type} (database : Accessor W value)
    (req : CheckoutRequest.t) (st : state W) (plan : Plan.t) :
  find_plan (CheckoutRequest.plan_id req) = Some plan ->
  calls (snd (checkout database req st)) =
    calls st ++ [CreateDocument "subscription" (new_subscription plan req)].
Proof.
  intros Hfind. unfold checkout. rewrite Hfind.
  unfold mbind, M_bind, call_create_document.
  destruct (create_document database "subscription" (new_subscription plan req) (store st))
    as [[inserted_id | e] w]; reflexivity.
Qed.

Lemma checkout_not_found {W value : Type} (database : Accessor W value)
    (req : CheckoutRequest.t) (st : state W) :
  find_plan (CheckoutRequest.plan_id req) = None ->
  checkout database req st = (Raised (HTTPException 404 "Plan not found"), st).
Proof. intros Hfind. unfold checkout. rewrite Hfind. reflexivity. Qed.

(** X2: [checkout] reaches the store exactly for the ids of the catalog, and
    then with one call, [create_document] on "subscription" for that
    [plan_id], whether the call returns or raises; for any other
    [plan_id], the match being exact and case-sensitive, the state is
    left as it was. *)
Theorem checkout_store_access {W value : Type} (database : Accessor W value)
    (req : CheckoutRequest.t) (st : state W) :
  (In (CheckoutRequest.plan_id req) ["starter"; "pro"; "business"] <->
     exists sub,
       calls (snd (checkout database req st)) = calls st ++ [CreateDocument "subscription" sub]
       /\ Subscription.plan_id sub = CheckoutRequest.plan_id req)
  /\ (~ In (CheckoutRequest.plan_id req) ["starter"; "pro"; "business"] <->
       snd (checkout database req st) = st).
Proof.
  assert (Hcalls : forall (cs : list call) c, cs ++ [c] <> cs).
  { intros cs c Heq. apply (f_equal (@List.length call)) in Heq.
    rewrite length_app in Heq. simpl in Heq. lia. }
  destruct (find_plan (CheckoutRequest.plan_id req)) as [plan|] eqn:Hfind.
  - pose proof (checkout_found_calls database req st plan Hfind) as Hlog.
    apply find_plan_Some in Hfind as [Hin Hid].
    assert (Hmem : In (CheckoutRequest.plan_id req) ["starter"; "pro"; "business"]).
    { rewrite <- Hid. change (In (Plan.id plan) (map Plan.id PRICING_PLANS)).
      apply in_map. exact Hin. }
    split; split.
    + intros _. exists (new_subscription plan req). split; [exact Hlog | exact Hid].
    + intros _. exact Hmem.
    + intros Hnot. destruct (Hnot Hmem).
    + intros Heq. rewrite Heq in Hlog. destruct (Hcalls _ _ (eq_sym Hlog)).
  - rewrite (checkout_not_found database req st Hfind).
    assert (Hmem : ~ In (CheckoutRequest.plan_id req) ["starter"; "pro"; "business"]).
    { change (~ In (CheckoutRequest.plan_id req) (map Plan.id PRICING_PLANS)).
      intros (plan & Hid & Hin)%in_map_iff.
      apply find_plan_In in Hin. rewrite Hid in Hin. congruence. }
    split; split.
    + intros Hin. destruct (Hmem Hin).
    + intros (sub & Heq & _). destruct (Hcalls _ _ (eq_sym Heq)).
    + intros _. reflexivity.
    + intros _. exact Hmem.
Qed.

(** X3: An error that [create_document] raises comes out of [checkout] as it
    is: no response is built, the one accessor call stands in the log,
    and the store is as the accessor left it. *)
Theorem checkout_store_error {W value : Type} (database : Accessor W value)
    (req : CheckoutRequest.t) (st : state W) (plan : Plan.t) (e : exn) (w : W) :
  In plan PRICING_PLANS ->
  Plan.id plan = CheckoutRequest.plan_id req ->
  create_document database "subscription" (new_subscription plan req) (store st)
    = (Raised e, w) ->
  checkout database req st =
    (Raised e,
     {| store := w;
        calls := calls st ++ [CreateDocument "subscription" (new_subscription plan req)] |}).
Proof.
  intros Hin Hid Hcreate.
  pose proof (find_plan_In plan Hin) as Hfind. rewrite Hid in Hfind.
  unfold checkout. rewrite Hfind.
  unfold mbind, M_bind, call_create_document. rewrite Hcreate. reflexivity.
Qed.

Lemma checkout_store_error_witness :
  checkout down_store pro_request {| store := tt; calls := [] |} =
    (Raised (Exception "Database not available"),
     {| store := tt;
        calls := [] ++ [CreateDocument "subscription"
                          (new_subscription
                             {| Plan.id := "pro"; Plan.name := "Pro"; Plan.price := 29%float;
                                Plan.interval := month;
                                Plan.features := [ "Everything in Starter";
                                                   "Advanced analytics";
                                                   "Priority support";
                                                   "Team collaboration" ];
                                Plan.most_popular := true |} pro_request)] |}).
Proof.
  refine (checkout_store_error down_store pro_request {| store := tt; calls := [] |}
            _ _ tt _ _ _).
  - simpl. right. left. reflexivity.
  - reflexivity.
  - reflexivity.
Defined.

(** A sequence of checkouts, request by request: one with a catalog
    [plan_id] makes its [create_document] call and answers with the
    identifier the call returned, one with any other [plan_id] raises the
    404 error and makes no call. *)
Lemma checkouts_run {W value : Type} (database : Accessor W value)
    (reqs : list CheckoutRequest.t) (st : state W) (ids : list string) :
  issued_ids database (omap checkout_call reqs) (store st) = map Returned ids ->
  subscription_ids (fst (checkouts database reqs st)) = ids
  /\ Forall2 (fun req r =>
                In (CheckoutRequest.plan_id req) ["starter"; "pro"; "business"]
                /\ (exists resp, r = Returned resp /\ CheckoutResponse.status resp = active)
                \/ ~ In (CheckoutRequest.plan_id req) ["starter"; "pro"; "business"]
                   /\ r = Raised (HTTPException 404 "Plan not found"))
       reqs (fst (checkouts database reqs st))
  /\ calls (snd (checkouts database reqs st)) = calls st ++ omap checkout_call reqs.
Proof.
  revert st ids. induction reqs as [|req reqs IH]; intros st ids.
  - simpl. intros Hids. destruct ids; [|discriminate].
    split; [reflexivity|]. split; [constructor | symmetry; apply app_nil_r].
  - change (checkouts database (req :: reqs) st)
      with (let '(r, st') := checkout database req st in
            let '(rs, st'') := checkouts database reqs st' in (r :: rs, st'')).
    change (omap checkout_call (req :: reqs))
      with (match checkout_call req with
            | Some c => c :: omap checkout_call reqs
            | None => omap checkout_call reqs
            end).
    destruct (find_plan (CheckoutRequest.plan_id req)) as [plan|] eqn:Hfind.
    + assert (Hcall : checkout_call req =
                      Some (CreateDocument "subscription" (new_subscription plan req))).
      { unfold checkout_call. rewrite Hfind. reflexivity. }
      rewrite Hcall. intros Hids. cbn [issued_ids] in Hids.
      destruct (create_document database "subscription" (new_subscription plan req) (store st))
        as [[inserted_id | e] w] eqn:Hcreate; destruct ids as [|i ids];
        try discriminate Hids.
      injection Hids as -> Hids.
      rewrite (checkout_found database req st plan i w Hfind Hcreate).
      destruct (IH {| store := w;
                      calls := calls st ++ [CreateDocument "subscription"
                                              (new_subscription plan req)] |} ids Hids)
        as (Hrs & Hall & Hcalls).
      destruct (checkouts database reqs _) as [rs st''].
      cbn [fst snd] in *. cbn [calls] in Hcalls.
      split; [unfold subscription_ids; cbn; f_equal; exact Hrs|].
      split.
      * constructor; [|exact Hall]. left. split.
        -- apply find_plan_Some in Hfind as [Hin <-].
           change (In (Plan.id plan) (map Plan.id PRICING_PLANS)).
           apply in_map. exact Hin.
        -- eexists. split; reflexivity.
      * rewrite Hcalls, <- app_assoc. reflexivity.
    + assert (Hcall : checkout_call req = None).
      { unfold checkout_call. rewrite Hfind. reflexivity. }
      rewrite Hcall. intros Hids.
      rewrite (checkout_not_found database req st Hfind).
      destruct (IH st ids Hids) as (Hrs & Hall & Hcalls).
      destruct (checkouts database reqs st) as [rs st''].
      cbn [fst snd] in *.
      split; [exact Hrs|]. split; [|exact Hcalls].
      constructor; [|exact Hall]. right. split; [|reflexivity].
      change (~ In (CheckoutRequest.plan_id req) (map Plan.id PRICING_PLANS)).
      intros (plan & Hid & Hin)%in_map_iff.
      apply find_plan_In in Hin. rewrite Hid in Hin. congruence.
Qed.

(** X4: Whatever the checkout requests handled in sequence, valid or not,
    alike or not: when [create_document] returns a unique identifier on
    each call, every request whose [plan_id] is in the catalog is
    answered with an active subscription, every other request raises the
    404 error, the accessor calls made are the [create_document] calls of
    the requests with a catalog [plan_id], in order and nothing else, and
    no two responses carry the same [subscription_id]. *)
Theorem checkouts_distinct_ids {W value : Type} (database : Accessor W value)
    (reqs : list CheckoutRequest.t) (st : state W) :
  unique_identifiers database (store st) ->
  Forall2 (fun req r =>
             In (CheckoutRequest.plan_id req) ["starter"; "pro"; "business"]
             /\ (exists resp, r = Returned resp /\ CheckoutResponse.status resp = active)
             \/ ~ In (CheckoutRequest.plan_id req) ["starter"; "pro"; "business"]
                /\ r = Raised (HTTPException 404 "Plan not found"))
    reqs (fst (checkouts database reqs st))
  /\ calls (snd (checkouts database reqs st)) = calls st ++ omap checkout_call reqs
  /\ List.length (subscription_ids (fst (checkouts database reqs st)))
       = List.length (omap checkout_call reqs)
  /\ NoDup (subscription_ids (fst (checkouts database reqs st))).
Proof.
  intros Huniq. destruct (Huniq (omap checkout_call reqs)) as (ids & Hids & Hnodup).
  destruct (checkouts_run database reqs st ids Hids) as (Hrs & Hall & Hcalls).
  split; [exact Hall|]. split; [exact Hcalls|]. rewrite Hrs. split; [|exact Hnodup].
  assert (Hlen : forall (cs : list call) (w : W) (l : list string),
            issued_ids database cs w = map Returned l ->
            Forall (fun c => exists collection_name data,
                               c = CreateDocument collection_name data) cs ->
            List.length l = List.length cs).
  { clear. intros cs. induction cs as [|c cs IH]; intros w l Hl Hcs.
    - destruct l; [reflexivity | discriminate].
    - apply Forall_cons in Hcs as [(collection_name & data & ->) Hcs]. simpl in Hl.
      destruct (create_document database collection_name data w) as [r w'].
      destruct l as [|i l]; [discriminate|]. injection Hl as _ Hl.
      simpl. f_equal. exact (IH w' l Hl Hcs). }
  apply (Hlen _ _ _ Hids). clear.
  induction reqs as [|req reqs IH]; simpl; [constructor|].
  unfold checkout_call at 1.
  destruct (find_plan (CheckoutRequest.plan_id req)) as [plan|]; simpl; [|exact IH].
  constructor; [eexists _, _; reflexivity | exact IH].
Qed.

Lemma checkouts_distinct_ids_witness :
  Forall2 (fun req r =>
             In (CheckoutRequest.plan_id req) ["starter"; "pro"; "business"]
             /\ (exists resp, r = Returned resp /\ CheckoutResponse.status resp = active)
             \/ ~ In (CheckoutRequest.plan_id req) ["starter"; "pro"; "business"]
                /\ r = Raised (HTTPException 404 "Plan not found"))
    [pro_request; nope_request; pro_request]
    (fst (checkouts mem_store [pro_request; nope_request; pro_request] mem_init))
  /\ calls (snd (checkouts mem_store [pro_request; nope_request; pro_request] mem_init))
       = calls mem_init ++ omap checkout_call [pro_request; nope_request; pro_request]
  /\ List.length (subscription_ids
                    (fst (checkouts mem_store [pro_request; nope_request; pro_request]
                            mem_init)))
       = List.length (omap checkout_call [pro_request; nope_request; pro_request])
  /\ NoDup (subscription_ids
              (fst (checkouts mem_store [pro_request; nope_request; pro_request] mem_init))).
Proof.
  apply (checkouts_distinct_ids mem_store [pro_request; nope_request; pro_request] mem_init).
  exact (mem_store_unique_identifiers []).
Defined.

(** ** Subscription query *)

(** X5: An error that [get_documents] raises comes out of
    [get_user_subscriptions] as it is: no response is built, the one
    accessor call stands in the log, and the store is as the accessor left
    it. *)
Theorem get_user_subscriptions_store_error {W value : Type}
    (py_str : value -> string) (VStr : string -> value) (database : Accessor W value)
    (email user_id : option string) (st : state W) (e : exn) (w : W) :
  get_documents database "subscription"
    (equality_filter (non_empty email) (non_empty user_id)) 50 (store st)
    = (Raised e, w) ->
  get_user_subscriptions py_str VStr database email user_id st =
    (Raised e,
     {| store := w;
        calls := calls st ++ [GetDocuments "subscription"
                               (equality_filter (non_empty email) (non_empty user_id)) 50] |}).
Proof.
  intros Hget. rewrite get_user_subscriptions_run. simpl. rewrite Hget. reflexivity.
Qed.

Lemma get_user_subscriptions_store_error_witness :
  get_user_subscriptions mem_str Str down_store (Some "x@y.com") None
    {| store := tt; calls := [] |} =
    (Raised (Exception "Database not available"),
     {| store := tt;
        calls := [] ++ [GetDocuments "subscription"
                          (equality_filter (non_empty (Some "x@y.com")) (non_empty None)) 50] |}).
Proof.
  apply (get_user_subscriptions_store_error mem_str Str down_store (Some "x@y.com") None
           {| store := tt; calls := [] |}).
  reflexivity.
Defined.

(** X6: The filter that [get_user_subscriptions] passes, entry by entry: a
    key is bound to a text exactly when the text is not empty and the key
    is "email" with that text as [email], or "user_id" with that text as
    [user_id]; so both parameters given means both conditions, and no
    entry ever asks for an empty text. *)
Theorem get_user_subscriptions_filter_entries {W value : Type}
    (py_str : value -> string) (VStr : string -> value) (database : Accessor W value)
    (email user_id : option string) (st : state W) :
  exists filter_dict : gmap string string,
    calls (snd (get_user_subscriptions py_str VStr database email user_id st)) =
      calls st ++ [GetDocuments "subscription" filter_dict 50]
    /\ forall (key text : string),
         filter_dict !! key = Some text <->
         text <> "" /\ (key = "email" /\ email = Some text
                        \/ key = "user_id" /\ user_id = Some text).
Proof.
  exists (equality_filter (non_empty email) (non_empty user_id)). split.
  - rewrite get_user_subscriptions_run. simpl.
    destruct (get_documents database "subscription" _ 50 (store st)). reflexivity.
  - intros key text. unfold equality_filter.
    destruct email as [[|a e]|], user_id as [[|b u]|]; simpl;
      rewrite ?lookup_insert, ?lookup_empty;
      repeat case_decide; subst;
      intuition (try discriminate; try congruence); subst; auto.
Qed.

(** X7: Rewriting the ["_id"] of a record a second time changes nothing, as
    [str()] of a [str] object is that text: a record met twice by the
    loop comes out as a record met once. *)
Theorem stringify_id_idempotent {value : Type}
    (py_str : value -> string) (VStr : string -> value) (d : gmap string value) :
  (forall s, py_str (VStr s) = s) ->
  stringify_id py_str VStr (stringify_id py_str VStr d) = stringify_id py_str VStr d.
Proof.
  intros Hstr. apply map_eq. intros key.
  rewrite !stringify_id_lookup.
  destruct (decide (key = "_id")); [|reflexivity].
  destruct (d !! "_id") as [v|]; simpl; [|reflexivity].
  rewrite Hstr. reflexivity.
Qed.

Lemma stringify_id_idempotent_witness :
  stringify_id mem_str Str
    (stringify_id mem_str Str (<["_id" := ObjectId 7]> {[ "email" := Str "x@y.com" ]}))
  = stringify_id mem_str Str (<["_id" := ObjectId 7]> {[ "email" := Str "x@y.com" ]}).
Proof.
  apply (stringify_id_idempotent mem_str Str). intros s. reflexivity.
Defined.

(** The loop adds no field to a record and drops none, and a record
    without an ["_id"] is not touched. *)
Lemma stringify_id_dom {value : Type}
    (py_str : value -> string) (VStr : string -> value) (d : gmap string value) :
  dom (stringify_id py_str VStr d) = dom d
  /\ (d !! "_id" = None -> stringify_id py_str VStr d = d).
Proof.
  unfold stringify_id. destruct (d !! "_id") as [v|] eqn:Hid.
  - split; [|discriminate]. apply dom_insert_lookup_L. rewrite Hid. eexists. reflexivity.
  - split; reflexivity.
Qed.

(** X8: When the accessor returns [docs], each record of the response has
    the field names of the record it comes from, and when no record of
    [docs] has an ["_id"], the items are [docs] themselves. *)
Theorem get_user_subscriptions_fields {W value : Type}
    (py_str : value -> string) (VStr : string -> value) (database : Accessor W value)
    (email user_id : option string) (st : state W)
    (docs : list (gmap string value)) (w : W) :
  get_documents database "subscription"
    (equality_filter (non_empty email) (non_empty user_id)) 50 (store st)
    = (Returned docs, w) ->
  exists items st',
    get_user_subscriptions py_str VStr database email user_id st
      = (Returned {[ "items" := items ]}, st')
    /\ Forall2 (fun d d' : gmap string value => dom d' = dom d) docs items
    /\ (Forall (fun d : gmap string value => d !! "_id" = None) docs -> items = docs).
Proof.
  intros Hget. rewrite get_user_subscriptions_run. simpl. rewrite Hget.
  eexists _, _. split; [reflexivity|]. split.
  - clear Hget. induction docs as [|d docs' IH]; simpl; constructor.
    + apply stringify_id_dom.
    + exact IH.
  - clear Hget. intros Hnone. induction Hnone as [|d docs' Hd _ IH]; [reflexivity|].
    rewrite fmap_cons, IH. f_equal. apply stringify_id_dom. exact Hd.
Qed.

Lemma get_user_subscriptions_fields_witness :
  exists items st',
    get_user_subscriptions mem_str Str mem_store (Some "x@y.com") None mem_after_checkout
      = (Returned {[ "items" := items ]}, st')
    /\ Forall2 (fun d d' : gmap string mem_value => dom d' = dom d)
         (store mem_after_checkout) items
    /\ (Forall (fun d : gmap string mem_value => d !! "_id" = None)
          (store mem_after_checkout) -> items = store mem_after_checkout).
Proof.
  apply (get_user_subscriptions_fields mem_str Str mem_store (Some "x@y.com") None
           mem_after_checkout (store mem_after_checkout) (store mem_after_checkout)).
  vm_compute. reflexivity.
Defined.

(** ** Diagnostics *)

(** X9: The "database_url" and "database_name" of the report tell only
    whether the variables [DATABASE_URL] and [DATABASE_NAME] are set to a
    text that is not empty, whatever became of the import and of the
    connection: what the handler wrote there before is overwritten. *)
Theorem test_database_env_flags (env : Env) :
  exists report,
    test_database env = Returned report
    /\ report !! "database_url" =
         Some (PyStr (match getenv env "DATABASE_URL" with
                      | None | Some "" => "❌ Not Set"
                      | Some _ => "✅ Set"
                      end))
    /\ report !! "database_name" =
         Some (PyStr (match getenv env "DATABASE_NAME" with
                      | None | Some "" => "❌ Not Set"
                      | Some _ => "✅ Set"
                      end)).
Proof.
  destruct env as [import getenv]. simpl.
  assert (Hflag : forall o : option string,
            (if str_truthy o then "✅ Set" else "❌ Not Set") =
            match o with None | Some "" => "❌ Not Set" | Some _ => "✅ Set" end).
  { intros [[|a o]|]; reflexivity. }
  rewrite <- !Hflag.
  destruct import as [[[db_name [collections | e]]|] | e];
    try destruct e; eexists; repeat split; reflexivity.
Qed.

(** X10: The name of the database never reaches the report: two connection
    handles that differ only in their [name] attribute, or in having one,
    give the same report. *)
Theorem test_database_name_hidden (name1 name2 : option string)
    (collections : outcome (list string)) (getenv : string -> option string) :
  test_database
    {| import_db := Returned (Some {| Database.name := name1;
                                      Database.list_collection_names := collections |});
       getenv := getenv |}
  = test_database
      {| import_db := Returned (Some {| Database.name := name2;
                                        Database.list_collection_names := collections |});
         getenv := getenv |}.
Proof.
  destruct collections as [names | e]; reflexivity.
Qed.

(** X11: The report always has the same six fields; "backend" always says
    running; "connection_status" says connected exactly when the import
    gave a handle; and "collections" is empty unless the enumeration
    returned, in which case it holds its first ten names at most. *)
Theorem test_database_report_shape (env : Env) :
  exists report,
    test_database env = Returned report
    /\ dom report =
         list_to_set ["backend"; "database"; "database_url"; "database_name";
                      "connection_status"; "collections"]
    /\ report !! "backend" = Some (PyStr "✅ Running")
    /\ report !! "connection_status" =
         Some (PyStr match import_db env with
                     | Returned (Some _) => "Connected"
                     | _ => "Not Connected"
                     end)
    /\ report !! "collections" =
         Some (PyList match import_db env with
                      | Returned (Some db) =>
                          match Database.list_collection_names db with
                          | Returned names => take 10 names
                          | Raised _ => []
                          end
                      | _ => []
                      end).
Proof.
  destruct env as [[[[db_name [collections | e]]|] | e] getenv];
    try destruct e; eexists; repeat split; reflexivity.
Qed.

(** X12: When the import raises an exception that is not an [ImportError],
    the "database" field is the error prefix followed by the first fifty
    code points of its message: exactly fifty when the message is longer,
    and the whole message when it has fifty or fewer. *)
Theorem test_database_import_error_text (env : Env) (e : exn) :
  import_db env = Raised e ->
  (forall msg, e <> ImportError msg) ->
  exists report text,
    test_database env = Returned report
    /\ report !! "database" = Some (PyStr ("❌ Error: " +:+ text))
    /\ str_len text = Nat.min 50 (str_len (exn_str e))
    /\ (exists rest, exn_str e = text +:+ rest)
    /\ (str_len (exn_str e) <= 50 -> text = exn_str e).
Proof.
  destruct env as [import getenv]. simpl. intros -> Hclass.
  destruct e as [status_code detail | msg | msg];
    [ eexists _, (str_take 50 _); split; [reflexivity|]
    | idtac
    | eexists _, (str_take 50 _); split; [reflexivity|] ].
  - split; [reflexivity|]. split; [apply str_take_len_min|].
    split; [apply str_take_prefix | apply str_take_all].
  - destruct (Hclass msg eq_refl).
  - split; [reflexivity|]. split; [apply str_take_len_min|].
    split; [apply str_take_prefix | apply str_take_all].
Qed.

Lemma test_database_import_error_text_witness :
  exists report text,
    test_database {| import_db := Raised (Exception "connection refused");
                     getenv := fun _ => None |} = Returned report
    /\ report !! "database" = Some (PyStr ("❌ Error: " +:+ text))
    /\ str_len text = Nat.min 50 (str_len "connection refused")
    /\ (exists rest, "connection refused" = text +:+ rest)
    /\ (str_len "connection refused" <= 50 -> text = "connection refused").
Proof.
  refine (test_database_import_error_text
            {| import_db := Raised (Exception "connection refused");
               getenv := fun _ => None |} (Exception "connection refused") _ _).
  - reflexivity.
  - intros msg. discriminate.
Defined.
